(** * newspaper/configuration.py: the [Configuration] settings object

    A shallow embedding of [newspaper.configuration]: Python values,
    the instance attributes of [Configuration], its properties and
    static methods as computations over the instance in a state and
    exception monad, and the two subclasses through the class
    namespaces and the method resolution order. *)

From Stdlib Require Import ZArith String Floats.
From stdpp Require Import gmap strings list fin_maps.

Set Warnings "-register-all".

Open Scope string_scope.

(** ** Python values

    The objects that reach this module as attribute values and as
    arguments of the setters.  A [str] is a [string] whose every
    [ascii] stands for one character; a [dict] with [str] keys is a
    [gmap]; [VCookieJar] is an [http.cookiejar.CookieJar] with the
    cookies it holds. *)

Inductive value : Type :=
| VNone
| VInt (z : Z)
| VStr (s : string)
| VDict (d : gmap string value)
| VCookieJar (cookies : list string).

(** [bool(v)]: [None], [0], the empty string, the empty dict and a cookie
    jar without cookies (it defines [__len__]) are false. *)
Definition truthy (v : value) : bool :=
  match v with
  | VNone => false
  | VInt z => negb (z =? 0)%Z
  | VStr s => negb (String.length s =? 0)%nat
  | VDict d => negb (size d =? 0)%nat
  | VCookieJar cookies => negb (length cookies =? 0)%nat
  end.

(** [len(v)]; [None] where Python raises [TypeError] (no [__len__]). *)
Definition py_len (v : value) : option nat :=
  match v with
  | VNone => None
  | VInt _ => None
  | VStr s => Some (String.length s)
  | VDict d => Some (size d)
  | VCookieJar cookies => Some (length cookies)
  end.

(** [v == s] for a [str] literal [s]: only an equal [str] compares equal. *)
Definition eq_str (v : value) (s : string) : bool :=
  match v with
  | VStr s' => bool_decide (s' = s)
  | _ => false
  end.

(** [v in l] for a list [l] of [str]. *)
Definition py_in (v : value) (l : list string) : bool :=
  existsb (eq_str v) l.

(** The stopword classes imported from [newspaper.text] and the parser
    class imported from [newspaper.parsers]; this module only passes the
    class objects around. *)
Inductive stopwords : Type :=
| StopWords
| StopWordsArabic
| StopWordsChinese
| StopWordsKorean
| StopWordsHindi
| StopWordsJapanese
| StopWordsThai.

Inductive parser : Type := Parser.

(** ** The instance

    One field per attribute that [__init__] assigns.  [requests_params]
    is [None] when the attribute is missing from the instance (after
    [del config.requests_params]); reading it then raises
    [AttributeError]. *)

Record Configuration : Type := {
  MIN_WORD_COUNT : Z;
  MIN_SENT_COUNT : Z;
  MAX_TITLE : Z;
  MAX_TEXT : Z;
  MAX_KEYWORDS : Z;
  MAX_AUTHORS : Z;
  MAX_SUMMARY : Z;
  MAX_SUMMARY_SENT : Z;
  MAX_FILE_MEMO : Z;
  memoize_articles : bool;
  fetch_images : bool;
  image_dimension_ration : float;
  follow_meta_refresh : bool;
  use_meta_language : bool;
  keep_article_html : bool;
  http_success_only : bool;
  _language : value;
  stopwords_class : stopwords;
  requests_params : option (gmap string value);
  number_threads : Z;
  verbose : bool;
  thread_timeout_seconds : Z;
  ignored_content_types_defaults : gmap string value
}.

(** Attribute writes [self.x = v]. *)
Definition with_requests_params (p : option (gmap string value))
    (c : Configuration) : Configuration :=
  {| MIN_WORD_COUNT := MIN_WORD_COUNT c;
     MIN_SENT_COUNT := MIN_SENT_COUNT c;
     MAX_TITLE := MAX_TITLE c;
     MAX_TEXT := MAX_TEXT c;
     MAX_KEYWORDS := MAX_KEYWORDS c;
     MAX_AUTHORS := MAX_AUTHORS c;
     MAX_SUMMARY := MAX_SUMMARY c;
     MAX_SUMMARY_SENT := MAX_SUMMARY_SENT c;
     MAX_FILE_MEMO := MAX_FILE_MEMO c;
     memoize_articles := memoize_articles c;
     fetch_images := fetch_images c;
     image_dimension_ration := image_dimension_ration c;
     follow_meta_refresh := follow_meta_refresh c;
     use_meta_language := use_meta_language c;
     keep_article_html := keep_article_html c;
     http_success_only := http_success_only c;
     _language := _language c;
     stopwords_class := stopwords_class c;
     requests_params := p;
     number_threads := number_threads c;
     verbose := verbose c;
     thread_timeout_seconds := thread_timeout_seconds c;
     ignored_content_types_defaults := ignored_content_types_defaults c |}.

Definition with_use_meta_language (b : bool) (c : Configuration)
    : Configuration :=
  {| MIN_WORD_COUNT := MIN_WORD_COUNT c;
     MIN_SENT_COUNT := MIN_SENT_COUNT c;
     MAX_TITLE := MAX_TITLE c;
     MAX_TEXT := MAX_TEXT c;
     MAX_KEYWORDS := MAX_KEYWORDS c;
     MAX_AUTHORS := MAX_AUTHORS c;
     MAX_SUMMARY := MAX_SUMMARY c;
     MAX_SUMMARY_SENT := MAX_SUMMARY_SENT c;
     MAX_FILE_MEMO := MAX_FILE_MEMO c;
     memoize_articles := memoize_articles c;
     fetch_images := fetch_images c;
     image_dimension_ration := image_dimension_ration c;
     follow_meta_refresh := follow_meta_refresh c;
     use_meta_language := b;
     keep_article_html := keep_article_html c;
     http_success_only := http_success_only c;
     _language := _language c;
     stopwords_class := stopwords_class c;
     requests_params := requests_params c;
     number_threads := number_threads c;
     verbose := verbose c;
     thread_timeout_seconds := thread_timeout_seconds c;
     ignored_content_types_defaults := ignored_content_types_defaults c |}.

Definition with__language (l : value) (c : Configuration) : Configuration :=
  {| MIN_WORD_COUNT := MIN_WORD_COUNT c;
     MIN_SENT_COUNT := MIN_SENT_COUNT c;
     MAX_TITLE := MAX_TITLE c;
     MAX_TEXT := MAX_TEXT c;
     MAX_KEYWORDS := MAX_KEYWORDS c;
     MAX_AUTHORS := MAX_AUTHORS c;
     MAX_SUMMARY := MAX_SUMMARY c;
     MAX_SUMMARY_SENT := MAX_SUMMARY_SENT c;
     MAX_FILE_MEMO := MAX_FILE_MEMO c;
     memoize_articles := memoize_articles c;
     fetch_images := fetch_images c;
     image_dimension_ration := image_dimension_ration c;
     follow_meta_refresh := follow_meta_refresh c;
     use_meta_language := use_meta_language c;
     keep_article_html := keep_article_html c;
     http_success_only := http_success_only c;
     _language := l;
     stopwords_class := stopwords_class c;
     requests_params := requests_params c;
     number_threads := number_threads c;
     verbose := verbose c;
     thread_timeout_seconds := thread_timeout_seconds c;
     ignored_content_types_defaults := ignored_content_types_defaults c |}.

Definition with_stopwords_class (k : stopwords) (c : Configuration)
    : Configuration :=
  {| MIN_WORD_COUNT := MIN_WORD_COUNT c;
     MIN_SENT_COUNT := MIN_SENT_COUNT c;
     MAX_TITLE := MAX_TITLE c;
     MAX_TEXT := MAX_TEXT c;
     MAX_KEYWORDS := MAX_KEYWORDS c;
     MAX_AUTHORS := MAX_AUTHORS c;
     MAX_SUMMARY := MAX_SUMMARY c;
     MAX_SUMMARY_SENT := MAX_SUMMARY_SENT c;
     MAX_FILE_MEMO := MAX_FILE_MEMO c;
     memoize_articles := memoize_articles c;
     fetch_images := fetch_images c;
     image_dimension_ration := image_dimension_ration c;
     follow_meta_refresh := follow_meta_refresh c;
     use_meta_language := use_meta_language c;
     keep_article_html := keep_article_html c;
     http_success_only := http_success_only c;
     _language := _language c;
     stopwords_class := k;
     requests_params := requests_params c;
     number_threads := number_threads c;
     verbose := verbose c;
     thread_timeout_seconds := thread_timeout_seconds c;
     ignored_content_types_defaults := ignored_content_types_defaults c |}.

(** ** Computations on [self]

    A method body runs on the instance and either returns or raises; the
    instance it leaves behind is there in both cases, so a write made
    before a [raise] would stay visible to the caller. *)

Inductive exn : Type := ValueError | TypeError | AttributeError | KeyError.

Inductive outcome (A : Type) : Type :=
| Return (a : A)
| Raise (e : exn).
Arguments Return {A} a.
Arguments Raise {A} e.

Definition M (A : Type) : Type := Configuration -> outcome A * Configuration.

Definition ret {A : Type} (a : A) : M A := fun c => (Return a, c).

Definition raise {A : Type} (e : exn) : M A := fun c => (Raise e, c).

Definition bind {A B : Type} (m : M A) (k : A -> M B) : M B :=
  fun c =>
    match m c with
    | (Return a, c') => k a c'
    | (Raise e, c') => (Raise e, c')
    end.

Declare Scope py_scope.
Delimit Scope py_scope with py.
Notation "x <- m ;; k" := (bind m (fun x => k))
  (at level 100, m at next level, right associativity) : py_scope.
Notation "m ;; k" := (bind m (fun _ => k))
  (at level 100, right associativity) : py_scope.
Open Scope py_scope.

(** [self.requests_params] *)
Definition self_requests_params : M (gmap string value) :=
  fun c =>
    match requests_params c with
    | Some d => (Return d, c)
    | None => (Raise AttributeError, c)
    end.

(** [self.requests_params[k] = v]: the dict the attribute holds is updated
    in place. *)
Definition requests_params_setitem (k : string) (v : value) : M unit :=
  d <- self_requests_params ;;
  fun c => (Return tt, with_requests_params (Some (<[k := v]> d)) c).

(** [d[k]] *)
Definition getitem (d : gmap string value) (k : string) : M value :=
  match d !! k with
  | Some v => ret v
  | None => raise KeyError
  end.

(** [d.get(k)] *)
Definition dict_get (d : gmap string value) (k : string) : value :=
  match d !! k with
  | Some v => v
  | None => VNone
  end.

(** [v.get(k)] on an arbitrary object: only a dict has the method. *)
Definition value_get (v : value) (k : string) : M value :=
  match v with
  | VDict d => ret (dict_get d k)
  | _ => raise AttributeError
  end.

(** [v[k] = x] on an arbitrary object, as the new state of the object:
    only a dict supports item assignment. *)
Definition value_setitem (v : value) (k : string) (x : value) : M value :=
  match v with
  | VDict d => ret (VDict (<[k := x]> d))
  | _ => raise TypeError
  end.

(** [n] if [len(v)] is defined, else [TypeError]. *)
Definition len (v : value) : M nat :=
  match py_len v with
  | Some n => ret n
  | None => raise TypeError
  end.

(** A language list and a release number to run the code on. *)
Definition sample_languages : list string :=
  ["ar"; "de"; "en"; "es"; "fa"; "fr"; "hi"; "ja"; "ko"; "th"; "zh"].

Definition sample_version : string := "0.9.3".

Section Configuration.

(** [list(get_available_languages())] of [newspaper.utils] and
    [__version__] of [newspaper.version]. *)
Variable get_available_languages : list string.
Variable __version__ : string.

(** [Configuration.__init__] *)
Definition __init__ : Configuration :=
  {| MIN_WORD_COUNT := 300;
     MIN_SENT_COUNT := 7;
     MAX_TITLE := 200;
     MAX_TEXT := 100000;
     MAX_KEYWORDS := 35;
     MAX_AUTHORS := 10;
     MAX_SUMMARY := 5000;
     MAX_SUMMARY_SENT := 5;
     MAX_FILE_MEMO := 20000;
     memoize_articles := true;
     fetch_images := true;
     image_dimension_ration := (16 / 9)%float;
     follow_meta_refresh := false;
     use_meta_language := true;
     keep_article_html := false;
     http_success_only := true;
     _language := VStr "en";
     stopwords_class := StopWords;
     requests_params :=
       Some (<["timeout" := VInt 7]>
            (<["proxies" := VDict ∅]>
            (<["headers" :=
                 VDict (<["User-Agent" := VStr ("newspaper/" +:+ __version__)]> ∅)]>
            (<["cookies" := VCookieJar []]> ∅))));
     number_threads := 10;
     verbose := false;
     thread_timeout_seconds := 1;
     ignored_content_types_defaults := ∅ |}.

(** [browser_user_agent] (getter) *)
Definition browser_user_agent : M value :=
  d <- self_requests_params ;;
  (if bool_decide (d !! "headers" = None)
   then requests_params_setitem "headers" (VDict ∅)
   else ret tt) ;;
  d <- self_requests_params ;;
  h <- getitem d "headers" ;;
  value_get h "User-Agent".

(** [browser_user_agent.setter] *)
Definition browser_user_agent_setter (value : value) : M unit :=
  d <- self_requests_params ;;
  (if bool_decide (d !! "headers" = None)
   then requests_params_setitem "headers" (VDict ∅)
   else ret tt) ;;
  d <- self_requests_params ;;
  h <- getitem d "headers" ;;
  h' <- value_setitem h "User-Agent" value ;;
  requests_params_setitem "headers" h'.

(** [headers] *)
Definition headers : M value :=
  d <- self_requests_params ;;
  ret (dict_get d "headers").

Definition headers_setter (value : value) : M unit :=
  requests_params_setitem "headers" value.

(** [request_timeout] *)
Definition request_timeout : M value :=
  d <- self_requests_params ;;
  ret (dict_get d "timeout").

Definition request_timeout_setter (value : value) : M unit :=
  requests_params_setitem "timeout" value.

(** [proxies] *)
Definition proxies : M value :=
  d <- self_requests_params ;;
  ret (dict_get d "proxies").

Definition proxies_setter (value : value) : M unit :=
  requests_params_setitem "proxies" value.

(** [language] (getter) *)
Definition language : M value :=
  fun c => (Return (_language c), c).

(** [get_stopwords_class] (static) *)
Definition get_stopwords_class (language : value) : stopwords :=
  if eq_str language "ko" then StopWordsKorean
  else if eq_str language "hi" then StopWordsHindi
  else if eq_str language "zh" then StopWordsChinese
  else if eq_str language "ar" || eq_str language "fa" then StopWordsArabic
  else if eq_str language "ja" then StopWordsJapanese
  else if eq_str language "th" then StopWordsThai
  else StopWords.

(** [language.setter] *)
Definition language_setter (value : value) : M unit :=
  (if negb (truthy value) then raise ValueError
   else n <- len value ;;
        if negb (n =? 2)%nat then raise ValueError else ret tt) ;;
  (if negb (py_in value get_available_languages) then raise ValueError
   else ret tt) ;;
  (fun c => (Return tt, with_use_meta_language false c)) ;;
  (fun c => (Return tt, with__language value c)) ;;
  (fun c => (Return tt, with_stopwords_class (get_stopwords_class value) c)).

(** [get_parser] (static) *)
Definition get_parser : parser := Parser.

(** ** The operations a caller has on an instance

    Reading or assigning one of the properties, and calling one of the
    two static methods. *)

Inductive operation : Type :=
| get_browser_user_agent
| set_browser_user_agent (v : value)
| get_headers
| set_headers (v : value)
| get_request_timeout
| set_request_timeout (v : value)
| get_proxies
| set_proxies (v : value)
| get_language
| set_language (v : value)
| call_get_stopwords_class (v : value)
| call_get_parser.

Inductive result : Type :=
| RUnit
| RValue (v : value)
| RStopwords (k : stopwords)
| RParser (p : parser).

Definition reading (m : M value) : M result := v <- m ;; ret (RValue v).
Definition assigning (m : M unit) : M result := m ;; ret RUnit.

Definition perform (o : operation) : M result :=
  match o with
  | get_browser_user_agent => reading browser_user_agent
  | set_browser_user_agent v => assigning (browser_user_agent_setter v)
  | get_headers => reading headers
  | set_headers v => assigning (headers_setter v)
  | get_request_timeout => reading request_timeout
  | set_request_timeout v => assigning (request_timeout_setter v)
  | get_proxies => reading proxies
  | set_proxies v => assigning (proxies_setter v)
  | get_language => reading language
  | set_language v => assigning (language_setter v)
  | call_get_stopwords_class v => ret (RStopwords (get_stopwords_class v))
  | call_get_parser => ret (RParser get_parser)
  end.

(** A caller that goes on after an exception keeps working on the
    instance as the failed operation left it. *)
Fixpoint run (ops : list operation) (c : Configuration) : Configuration :=
  match ops with
  | [] => c
  | o :: ops' => run ops' (snd (perform o c))
  end.

(** ** The classes

    [class ArticleConfiguration(Configuration): pass] and
    [class SourceConfiguration(Configuration): pass]: a class is its own
    namespace and its bases; an attribute is looked up along the method
    resolution order. *)

Inductive class : Type :=
| ClsConfiguration
| ClsArticleConfiguration
| ClsSourceConfiguration.

Inductive member : Type :=
| Initializer (init : Configuration)
| Property (fget : M value) (fset : value -> M unit)
| StopwordsStaticMethod (f : value -> stopwords)
| ParserStaticMethod (f : parser).

Definition namespace (k : class) : gmap string member :=
  match k with
  | ClsConfiguration =>
      <["__init__" := Initializer __init__]>
      (<["browser_user_agent" :=
           Property browser_user_agent browser_user_agent_setter]>
      (<["headers" := Property headers headers_setter]>
      (<["request_timeout" :=
           Property request_timeout request_timeout_setter]>
      (<["proxies" := Property proxies proxies_setter]>
      (<["language" := Property language language_setter]>
      (<["get_stopwords_class" :=
           StopwordsStaticMethod get_stopwords_class]>
      (<["get_parser" := ParserStaticMethod get_parser]> ∅)))))))
  | ClsArticleConfiguration => ∅
  | ClsSourceConfiguration => ∅
  end.

Definition bases (k : class) : list class :=
  match k with
  | ClsConfiguration => []
  | ClsArticleConfiguration => [ClsConfiguration]
  | ClsSourceConfiguration => [ClsConfiguration]
  end.

(** The method resolution order; every class here has at most one base,
    which has none. *)
Definition mro (k : class) : list class := k :: bases k.

Fixpoint lookup_along (ks : list class) (name : string) : option member :=
  match ks with
  | [] => None
  | k :: ks' =>
      match namespace k !! name with
      | Some m => Some m
      | None => lookup_along ks' name
      end
  end.

Definition class_getattr (k : class) (name : string) : option member :=
  lookup_along (mro k) name.

(** [k()] *)
Definition instantiate (k : class) : option Configuration :=
  match class_getattr k "__init__" with
  | Some (Initializer init) => Some init
  | _ => None
  end.

Definition property_get (k : class) (name : string) : M result :=
  match class_getattr k name with
  | Some (Property fget _) => reading fget
  | _ => raise AttributeError
  end.

Definition property_set (k : class) (name : string) (v : value)
    : M result :=
  match class_getattr k name with
  | Some (Property _ fset) => assigning (fset v)
  | _ => raise AttributeError
  end.

(** An operation on an instance of class [k]. *)
Definition dispatch (k : class) (o : operation) : M result :=
  match o with
  | get_browser_user_agent => property_get k "browser_user_agent"
  | set_browser_user_agent v => property_set k "browser_user_agent" v
  | get_headers => property_get k "headers"
  | set_headers v => property_set k "headers" v
  | get_request_timeout => property_get k "request_timeout"
  | set_request_timeout v => property_set k "request_timeout" v
  | get_proxies => property_get k "proxies"
  | set_proxies v => property_set k "proxies" v
  | get_language => property_get k "language"
  | set_language v => property_set k "language" v
  | call_get_stopwords_class v =>
      match class_getattr k "get_stopwords_class" with
      | Some (StopwordsStaticMethod f) => ret (RStopwords (f v))
      | _ => raise AttributeError
      end
  | call_get_parser =>
      match class_getattr k "get_parser" with
      | Some (ParserStaticMethod f) => ret (RParser f)
      | _ => raise AttributeError
      end
  end.

(** ** Properties of instances and operations *)

(** The codes that [get_stopwords_class] tells apart. *)
Definition special_codes : list string :=
  ["ko"; "hi"; "zh"; "ar"; "fa"; "ja"; "th"].

(** Apart from the language setter, an operation writes nothing but
    [requests_params]. *)
Definition writes_requests_params_only {A : Type} (m : M A) : Prop :=
  forall c, exists p, snd (m c) = with_requests_params p c.

(** [stopwords_class] is the class that belongs to the language. *)
Definition consistent (c : Configuration) : Prop :=
  stopwords_class c = get_stopwords_class (_language c).

(** The operations that read [self.requests_params], and among them the
    two that go on into the value stored under "headers". *)
Definition uses_requests_params (o : operation) : bool :=
  match o with
  | get_browser_user_agent | set_browser_user_agent _
  | get_headers | set_headers _
  | get_request_timeout | set_request_timeout _
  | get_proxies | set_proxies _ => true
  | get_language | set_language _
  | call_get_stopwords_class _ | call_get_parser => false
  end.

Definition uses_headers_entry (o : operation) : bool :=
  match o with
  | get_browser_user_agent | set_browser_user_agent _ => true
  | _ => false
  end.

(** "headers" is there and holds something that is not a dict. *)
Definition headers_not_a_dict (c : Configuration) : Prop :=
  exists d x,
    requests_params c = Some d /\ d !! "headers" = Some x /\
    forall h, x <> VDict h.

(** "headers" is missing or holds a dict. *)
Definition headers_usable (d : gmap string value) : Prop :=
  d !! "headers" = None \/ exists h, d !! "headers" = Some (VDict h).

(** The language is a [str] of two characters, the fallback "en" or a
    supported code. *)
Definition language_is_code (c : Configuration) : Prop :=
  exists s,
    _language c = VStr s /\ String.length s = 2 /\
    (s = "en" \/ In s get_available_languages).

(** The limits, the flags other than [use_meta_language], and the thread
    settings. *)
Definition settings (c : Configuration) :=
  (MIN_WORD_COUNT c, MIN_SENT_COUNT c, MAX_TITLE c, MAX_TEXT c,
   MAX_KEYWORDS c, MAX_AUTHORS c, MAX_SUMMARY c, MAX_SUMMARY_SENT c,
   MAX_FILE_MEMO c,
   (memoize_articles c, fetch_images c, image_dimension_ration c,
    follow_meta_refresh c, keep_article_html c, http_success_only c),
   (number_threads c, verbose c, thread_timeout_seconds c,
    ignored_content_types_defaults c)).

Definition is_language_assignment (o : operation) : bool :=
  match o with
  | set_language _ => true
  | _ => false
  end.

(** An assignment to [headers] stores a dict. *)
Definition assigns_dict_to_headers (o : operation) : Prop :=
  match o with
  | set_headers v => exists h, v = VDict h
  | _ => True
  end.

(** [requests_params] is there and "headers" is missing or a dict. *)
Definition requests_params_ready (c : Configuration) : Prop :=
  exists d, requests_params c = Some d /\ headers_usable d.

(** ** Equations of the attribute writes and of the method bodies *)

Lemma with_requests_params_same (c : Configuration) :
  with_requests_params (requests_params c) c = c.
Proof. destruct c; reflexivity. Qed.

Lemma self_requests_params_present c d :
  requests_params c = Some d -> self_requests_params c = (Return d, c).
Proof. intros H. unfold self_requests_params. rewrite H. reflexivity. Qed.

Lemma self_requests_params_missing c :
  requests_params c = None ->
  self_requests_params c = (Raise AttributeError, c).
Proof. intros H. unfold self_requests_params. rewrite H. reflexivity. Qed.

Lemma requests_params_setitem_present c d k v :
  requests_params c = Some d ->
  requests_params_setitem k v c
  = (Return tt, with_requests_params (Some (<[k := v]> d)) c).
Proof.
  intros H. unfold requests_params_setitem, bind.
  rewrite (self_requests_params_present c d H). reflexivity.
Qed.

Lemma requests_params_setitem_missing c k v :
  requests_params c = None ->
  requests_params_setitem k v c = (Raise AttributeError, c).
Proof.
  intros H. unfold requests_params_setitem, bind.
  rewrite (self_requests_params_missing c H). reflexivity.
Qed.

Lemma browser_user_agent_missing c :
  requests_params c = None ->
  browser_user_agent c = (Raise AttributeError, c).
Proof.
  intros H. unfold browser_user_agent, bind.
  rewrite (self_requests_params_missing c H). reflexivity.
Qed.

Lemma browser_user_agent_no_headers c d :
  requests_params c = Some d -> d !! "headers" = None ->
  browser_user_agent c
  = (Return VNone,
     with_requests_params (Some (<["headers" := VDict ∅]> d)) c).
Proof.
  intros H Hd. unfold browser_user_agent, bind.
  rewrite (self_requests_params_present c d H).
  rewrite bool_decide_eq_true_2 by exact Hd.
  rewrite (requests_params_setitem_present c d _ _ H).
  unfold self_requests_params, getitem. cbn [requests_params with_requests_params].
  rewrite lookup_insert_eq. reflexivity.
Qed.

Lemma browser_user_agent_headers c d x :
  requests_params c = Some d -> d !! "headers" = Some x ->
  browser_user_agent c
  = (match x with
     | VDict h => Return (dict_get h "User-Agent")
     | _ => Raise AttributeError
     end, c).
Proof.
  intros H Hd. unfold browser_user_agent, bind.
  rewrite (self_requests_params_present c d H).
  rewrite bool_decide_eq_false_2 by (rewrite Hd; discriminate).
  unfold ret at 1. rewrite (self_requests_params_present c d H).
  unfold getitem. rewrite Hd. destruct x; reflexivity.
Qed.

Lemma browser_user_agent_setter_missing c v :
  requests_params c = None ->
  browser_user_agent_setter v c = (Raise AttributeError, c).
Proof.
  intros H. unfold browser_user_agent_setter, bind.
  rewrite (self_requests_params_missing c H). reflexivity.
Qed.

Lemma browser_user_agent_setter_no_headers c d v :
  requests_params c = Some d -> d !! "headers" = None ->
  browser_user_agent_setter v c
  = (Return tt,
     with_requests_params
       (Some (<["headers" := VDict (<["User-Agent" := v]> ∅)]> d)) c).
Proof.
  intros H Hd. unfold browser_user_agent_setter, bind.
  rewrite (self_requests_params_present c d H).
  rewrite bool_decide_eq_true_2 by exact Hd.
  rewrite (requests_params_setitem_present c d _ _ H).
  unfold self_requests_params, getitem, requests_params_setitem, bind.
  cbn [requests_params with_requests_params].
  rewrite lookup_insert_eq. cbn.
  unfold self_requests_params. cbn [requests_params with_requests_params].
  rewrite insert_insert_eq. reflexivity.
Qed.

Lemma browser_user_agent_setter_headers c d x v :
  requests_params c = Some d -> d !! "headers" = Some x ->
  browser_user_agent_setter v c
  = match x with
    | VDict h =>
        (Return tt,
         with_requests_params
           (Some (<["headers" := VDict (<["User-Agent" := v]> h)]> d)) c)
    | _ => (Raise TypeError, c)
    end.
Proof.
  intros H Hd. unfold browser_user_agent_setter, bind.
  rewrite (self_requests_params_present c d H).
  rewrite bool_decide_eq_false_2 by (rewrite Hd; discriminate).
  unfold ret at 1. rewrite (self_requests_params_present c d H).
  unfold getitem. rewrite Hd.
  destruct x; try reflexivity.
  cbn. rewrite (requests_params_setitem_present c d _ _ H). reflexivity.
Qed.

Lemma language_setter_cases v c :
  language_setter v c =
    if negb (truthy v) then (Raise ValueError, c)
    else match py_len v with
         | None => (Raise TypeError, c)
         | Some n =>
             if negb (n =? 2)%nat then (Raise ValueError, c)
             else if negb (py_in v get_available_languages)
                  then (Raise ValueError, c)
                  else (Return tt,
                        with_stopwords_class (get_stopwords_class v)
                          (with__language v
                             (with_use_meta_language false c)))
         end.
Proof.
  unfold language_setter, bind, len.
  destruct (truthy v); cbn; [| reflexivity].
  destruct (py_len v) as [n |]; cbn; [| reflexivity].
  destruct (n =? 2)%nat; cbn; [| reflexivity].
  destruct (py_in v get_available_languages); reflexivity.
Qed.

(** ** Stopword resolution *)

Lemma get_stopwords_class_other (v : value) :
  (forall s, In s special_codes -> v <> VStr s) ->
  get_stopwords_class v = StopWords.
Proof.
  intros H. unfold get_stopwords_class.
  destruct v as [| z | s | d | cs]; try reflexivity.
  assert (Hs : forall t, In t special_codes -> eq_str (VStr s) t = false).
  { intros t Ht. simpl. apply bool_decide_eq_false.
    intros ->. exact (H t Ht eq_refl). }
  rewrite !Hs by (simpl; tauto). reflexivity.
Qed.

(** C1: [get_stopwords_class] maps "ko" to the Korean class, "hi" to
    Hindi, "zh" to Chinese, "ar" and "fa" to the same Arabic class, "ja"
    to Japanese, "th" to Thai; every other supported code, "en" among
    them, goes to the general [StopWords].  The comparison is exact, so
    the codes in another case go to [StopWords] as well, and the call
    never touches the instance. *)
Theorem get_stopwords_class_mapping :
  get_stopwords_class (VStr "ko") = StopWordsKorean /\
  get_stopwords_class (VStr "hi") = StopWordsHindi /\
  get_stopwords_class (VStr "zh") = StopWordsChinese /\
  get_stopwords_class (VStr "ar") = StopWordsArabic /\
  get_stopwords_class (VStr "fa") = StopWordsArabic /\
  get_stopwords_class (VStr "ar") = get_stopwords_class (VStr "fa") /\
  get_stopwords_class (VStr "ja") = StopWordsJapanese /\
  get_stopwords_class (VStr "th") = StopWordsThai /\
  get_stopwords_class (VStr "en") = StopWords /\
  (forall s, In s get_available_languages -> ~ In s special_codes ->
     get_stopwords_class (VStr s) = StopWords) /\
  (forall s, In s ["KO"; "Hi"; "ZH"; "Ar"; "FA"; "jA"; "TH"] ->
     get_stopwords_class (VStr s) = StopWords) /\
  (forall v c,
     perform (call_get_stopwords_class v) c
     = (Return (RStopwords (get_stopwords_class v)), c)).
Proof.
  repeat split; try reflexivity.
  - intros s _ Hs. apply get_stopwords_class_other.
    intros t Ht [= ->]. exact (Hs Ht).
  - intros s Hs. simpl in Hs.
    repeat (destruct Hs as [<- | Hs]; [reflexivity |]). destruct Hs.
Qed.

(** C10: [get_stopwords_class] has no validation of its own.  On every
    argument other than the seven special codes (an unsupported code, the
    empty string, a string that is not two characters long) the call
    returns, with the general [StopWords], and leaves the instance as it
    was. *)
Theorem get_stopwords_class_total (v : value) (c : Configuration) :
  (forall s, In s special_codes -> v <> VStr s) ->
  get_stopwords_class v = StopWords /\
  perform (call_get_stopwords_class v) c = (Return (RStopwords StopWords), c).
Proof.
  intros H. pose proof (get_stopwords_class_other v H) as E.
  split; [exact E |]. cbn. unfold ret. rewrite E. reflexivity.
Qed.

(** ** Construction *)

(** C4: the instance that [__init__] builds has "en" as its language,
    the general [StopWords], and a [requests_params] with timeout 7, no
    proxies, a cookie jar without cookies, and headers whose
    "User-Agent" is "newspaper/" followed by the release number; the
    properties read these values back, and instantiating the class
    succeeds with this instance. *)
Theorem init_defaults :
  instantiate ClsConfiguration = Some __init__ /\
  _language __init__ = VStr "en" /\
  stopwords_class __init__ = StopWords /\
  (exists d h,
     requests_params __init__ = Some d /\
     d !! "timeout" = Some (VInt 7) /\
     d !! "proxies" = Some (VDict ∅) /\
     d !! "cookies" = Some (VCookieJar []) /\
     d !! "headers" = Some (VDict h) /\
     h = {[ "User-Agent" := VStr ("newspaper/" +:+ __version__) ]}) /\
  language __init__ = (Return (VStr "en"), __init__) /\
  request_timeout __init__ = (Return (VInt 7), __init__) /\
  proxies __init__ = (Return (VDict ∅), __init__) /\
  browser_user_agent __init__
  = (Return (VStr ("newspaper/" +:+ __version__)), __init__) /\
  use_meta_language __init__ = true /\
  (MIN_WORD_COUNT __init__, MIN_SENT_COUNT __init__, MAX_TITLE __init__,
   MAX_TEXT __init__, MAX_KEYWORDS __init__, MAX_AUTHORS __init__,
   MAX_SUMMARY __init__, MAX_SUMMARY_SENT __init__, MAX_FILE_MEMO __init__,
   number_threads __init__, thread_timeout_seconds __init__)
  = (300, 7, 200, 100000, 35, 10, 5000, 5, 20000, 10, 1)%Z /\
  (memoize_articles __init__, fetch_images __init__,
   follow_meta_refresh __init__, keep_article_html __init__,
   http_success_only __init__, verbose __init__)
  = (true, true, false, false, true, false) /\
  ignored_content_types_defaults __init__ = ∅.
Proof.
  split; [reflexivity |].
  split; [reflexivity |].
  split; [reflexivity |].
  split.
  { eexists _, _. split; [reflexivity |].
    repeat split; reflexivity. }
  split; [reflexivity |].
  split; [reflexivity |].
  split; [reflexivity |].
  split.
  { erewrite browser_user_agent_headers by reflexivity. reflexivity. }
  repeat split; reflexivity.
Qed.

(** ** The language setter *)

Lemma py_in_str (s : string) (l : list string) :
  py_in (VStr s) l = true <-> In s l.
Proof.
  unfold py_in. rewrite existsb_exists. split.
  - intros [t [Ht E]]. simpl in E. apply bool_decide_eq_true in E.
    subst. exact Ht.
  - intros H. exists s. split; [exact H |].
    simpl. apply bool_decide_eq_true. reflexivity.
Qed.

Lemma language_setter_raise_unchanged v c e c' :
  language_setter v c = (Raise e, c') -> c' = c.
Proof.
  rewrite language_setter_cases.
  destruct (negb (truthy v)); [congruence |].
  destruct (py_len v) as [n |]; [| congruence].
  destruct (negb (n =? 2)%nat); [congruence |].
  destruct (negb (py_in v get_available_languages)); congruence.
Qed.

Lemma language_setter_return v c c' :
  language_setter v c = (Return tt, c') ->
  c' = with_stopwords_class (get_stopwords_class v)
         (with__language v (with_use_meta_language false c)).
Proof.
  rewrite language_setter_cases.
  destruct (negb (truthy v)); [congruence |].
  destruct (py_len v) as [n |]; [| congruence].
  destruct (negb (n =? 2)%nat); [congruence |].
  destruct (negb (py_in v get_available_languages)); congruence.
Qed.

(** C3: a string that is not two characters long, or that is not a
    supported code, makes the language setter raise [ValueError] and
    leaves the whole instance as it was; and whatever the value, an
    assignment that raises leaves the instance as it was, so [language]
    and [stopwords_class] keep their values. *)
Theorem language_setter_failure_atomic (c : Configuration) :
  (forall s, String.length s <> 2 \/ ~ In s get_available_languages ->
     language_setter (VStr s) c = (Raise ValueError, c)) /\
  language_setter VNone c = (Raise ValueError, c) /\
  (forall v e c', language_setter v c = (Raise e, c') ->
     c' = c /\ _language c' = _language c /\
     stopwords_class c' = stopwords_class c /\
     use_meta_language c' = use_meta_language c).
Proof.
  split; [| split].
  - intros s H. rewrite language_setter_cases. cbn [truthy py_len].
    destruct (String.length s =? 0)%nat eqn:E0; [reflexivity |].
    cbn [negb].
    destruct (String.length s =? 2)%nat eqn:E2; [| reflexivity].
    cbn [negb].
    destruct (py_in (VStr s) get_available_languages) eqn:Ein;
      [| reflexivity].
    apply Nat.eqb_eq in E2. apply py_in_str in Ein.
    destruct H as [H | H]; contradiction.
  - reflexivity.
  - intros v e c' H.
    apply language_setter_raise_unchanged in H. subst. auto.
Qed.

(** ** What an operation may change *)

Lemma unchanged_frame (c : Configuration) :
  exists p, c = with_requests_params p c.
Proof.
  exists (requests_params c). symmetry. apply with_requests_params_same.
Qed.

Lemma getter_frame (k : string) :
  writes_requests_params_only
    (d <- self_requests_params ;; ret (dict_get d k)).
Proof.
  intros c. unfold bind, self_requests_params.
  destruct (requests_params c); cbn; apply unchanged_frame.
Qed.

Lemma requests_params_setitem_frame k v :
  writes_requests_params_only (requests_params_setitem k v).
Proof.
  intros c. destruct (requests_params c) as [d |] eqn:E.
  - rewrite (requests_params_setitem_present c d k v E). cbn. eauto.
  - rewrite (requests_params_setitem_missing c k v E). cbn.
    apply unchanged_frame.
Qed.

Lemma browser_user_agent_frame :
  writes_requests_params_only browser_user_agent.
Proof.
  intros c. destruct (requests_params c) as [d |] eqn:E.
  - destruct (d !! "headers") as [x |] eqn:Ed.
    + rewrite (browser_user_agent_headers c d x E Ed). cbn.
      apply unchanged_frame.
    + rewrite (browser_user_agent_no_headers c d E Ed). cbn. eauto.
  - rewrite (browser_user_agent_missing c E). cbn. apply unchanged_frame.
Qed.

Lemma browser_user_agent_setter_frame v :
  writes_requests_params_only (browser_user_agent_setter v).
Proof.
  intros c. destruct (requests_params c) as [d |] eqn:E.
  - destruct (d !! "headers") as [x |] eqn:Ed.
    + rewrite (browser_user_agent_setter_headers c d x v E Ed).
      destruct x; cbn; eauto using unchanged_frame.
    + rewrite (browser_user_agent_setter_no_headers c d v E Ed). cbn. eauto.
  - rewrite (browser_user_agent_setter_missing c v E). cbn.
    apply unchanged_frame.
Qed.

Lemma reading_snd (m : M value) c : snd (reading m c) = snd (m c).
Proof. unfold reading, bind. destruct (m c) as [[a | e] c']; reflexivity. Qed.

Lemma assigning_snd (m : M unit) c : snd (assigning m c) = snd (m c).
Proof.
  unfold assigning, bind. destruct (m c) as [[a | e] c']; reflexivity.
Qed.

Lemma perform_frame (o : operation) :
  (forall v, o <> set_language v) ->
  writes_requests_params_only (perform o).
Proof.
  intros Ho c.
  destruct o; cbn [perform];
    rewrite ?reading_snd, ?assigning_snd;
    try apply browser_user_agent_frame;
    try apply browser_user_agent_setter_frame;
    try apply (getter_frame _ c);
    try apply requests_params_setitem_frame;
    try apply unchanged_frame.
  exfalso. exact (Ho v eq_refl).
Qed.

Lemma perform_set_language_snd v c :
  snd (perform (set_language v) c) = c \/
  snd (perform (set_language v) c)
  = with_stopwords_class (get_stopwords_class v)
      (with__language v (with_use_meta_language false c)).
Proof.
  cbn [perform]. rewrite assigning_snd.
  destruct (language_setter v c) as [[[] | e] c'] eqn:E.
  - right. exact (language_setter_return v c c' E).
  - left. exact (language_setter_raise_unchanged v c e c' E).
Qed.

Lemma perform_cases (o : operation) (c : Configuration) :
  (exists p, snd (perform o c) = with_requests_params p c) \/
  (exists v, snd (perform o c)
             = with_stopwords_class (get_stopwords_class v)
                 (with__language v (with_use_meta_language false c))).
Proof.
  destruct o;
    try (left; apply perform_frame; discriminate).
  destruct (perform_set_language_snd v c) as [E | E]; rewrite E.
  - left. apply unchanged_frame.
  - right. eauto.
Qed.

(** ** The meta-language flag *)

Lemma perform_keeps_flag_cleared o c :
  use_meta_language c = false ->
  use_meta_language (snd (perform o c)) = false.
Proof.
  intros H.
  destruct (perform_cases o c) as [[p E] | [v E]]; rewrite E.
  - exact H.
  - reflexivity.
Qed.

(** C6: [use_meta_language] is true on a new instance, is false after a
    language assignment that succeeds, and once false it stays false
    through every further sequence of operations. *)
Theorem use_meta_language_cleared_for_good :
  use_meta_language __init__ = true /\
  (forall v c c',
     language_setter v c = (Return tt, c') ->
     use_meta_language c' = false) /\
  (forall ops c,
     use_meta_language c = false ->
     use_meta_language (run ops c) = false).
Proof.
  split; [reflexivity |]. split.
  - intros v c c' H. apply language_setter_return in H. subst. reflexivity.
  - intros ops. induction ops as [| o ops IH]; intros c H; cbn [run].
    + exact H.
    + apply IH. apply perform_keeps_flag_cleared. exact H.
Qed.

(** ** Language and stopword class agree *)

Lemma perform_consistent o c :
  consistent c -> consistent (snd (perform o c)).
Proof.
  unfold consistent. intros H.
  destruct (perform_cases o c) as [[p E] | [v E]]; rewrite E.
  - exact H.
  - reflexivity.
Qed.

(** C7: on a new instance, and after every sequence of operations on
    it, [stopwords_class] is [get_stopwords_class] of the language the
    instance holds; a language assignment that returns stores its
    argument as that language, and one that raises stores nothing. *)
Theorem stopwords_class_follows_language :
  consistent __init__ /\
  (forall ops, consistent (run ops __init__)) /\
  (forall ops c, consistent c -> consistent (run ops c)) /\
  (forall v c c',
     language_setter v c = (Return tt, c') ->
     _language c' = v /\ stopwords_class c' = get_stopwords_class v) /\
  (forall v c e c',
     language_setter v c = (Raise e, c') -> _language c' = _language c).
Proof.
  assert (H0 : consistent __init__) by reflexivity.
  assert (Hrun : forall ops c, consistent c -> consistent (run ops c)).
  { intros ops. induction ops as [| o ops IH]; intros c Hc; cbn [run].
    - exact Hc.
    - apply IH. apply perform_consistent. exact Hc. }
  split; [exact H0 |]. split; [| split; [exact Hrun |]; split].
  - intros ops. apply Hrun. exact H0.
  - intros v c c' H. apply language_setter_return in H. subst. auto.
  - intros v c e c' H. apply language_setter_raise_unchanged in H.
    subst. reflexivity.
Qed.

(** ** The subclasses *)

Lemma class_getattr_subclass (k : class) (name : string) :
  class_getattr k name = class_getattr ClsConfiguration name.
Proof.
  destruct k; [reflexivity | |];
    unfold class_getattr, mro, bases; cbn [lookup_along namespace];
    rewrite lookup_empty; reflexivity.
Qed.

Lemma dispatch_base (o : operation) (c : Configuration) :
  dispatch ClsConfiguration o c = perform o c.
Proof. destruct o; reflexivity. Qed.

(** C9: [ArticleConfiguration] and [SourceConfiguration] define nothing
    of their own: every name resolves to the member of [Configuration],
    instantiating either class gives the instance that [Configuration]
    gives, and every operation on any instance returns or raises the
    same and leaves the same instance as on [Configuration]. *)
Theorem subclasses_inherit_unchanged (k : class) :
  namespace ClsArticleConfiguration = ∅ /\
  namespace ClsSourceConfiguration = ∅ /\
  (forall name, class_getattr k name = class_getattr ClsConfiguration name) /\
  instantiate k = instantiate ClsConfiguration /\
  instantiate k = Some __init__ /\
  (forall o c, dispatch k o c = dispatch ClsConfiguration o c) /\
  (forall o c, dispatch k o c = perform o c).
Proof.
  assert (Hd : forall o c, dispatch k o c = dispatch ClsConfiguration o c).
  { intros o c. unfold dispatch, property_get, property_set.
    destruct o; rewrite class_getattr_subclass; reflexivity. }
  assert (Hi : instantiate k = instantiate ClsConfiguration).
  { unfold instantiate. rewrite class_getattr_subclass. reflexivity. }
  repeat split; try reflexivity.
  - apply class_getattr_subclass.
  - exact Hi.
  - rewrite Hi. reflexivity.
  - exact Hd.
  - intros o c. rewrite Hd. apply dispatch_base.
Qed.

(** ** Which operations raise, and when *)

Lemma reading_fst (m : M value) c :
  fst (reading m c)
  = match fst (m c) with
    | Return v => Return (RValue v)
    | Raise e => Raise e
    end.
Proof. unfold reading, bind. destruct (m c) as [[a | e] c']; reflexivity. Qed.

Lemma assigning_fst (m : M unit) c :
  fst (assigning m c)
  = match fst (m c) with
    | Return _ => Return RUnit
    | Raise e => Raise e
    end.
Proof.
  unfold assigning, bind. destruct (m c) as [[a | e] c']; reflexivity.
Qed.

Lemma getter_fst (k : string) c :
  fst ((d <- self_requests_params ;; ret (dict_get d k)) c)
  = match requests_params c with
    | Some d => Return (dict_get d k)
    | None => Raise AttributeError
    end.
Proof.
  unfold bind, self_requests_params.
  destruct (requests_params c); reflexivity.
Qed.

Lemma requests_params_setitem_fst k v c :
  fst (requests_params_setitem k v c)
  = match requests_params c with
    | Some _ => Return tt
    | None => Raise AttributeError
    end.
Proof.
  destruct (requests_params c) as [d |] eqn:E.
  - rewrite (requests_params_setitem_present c d k v E). reflexivity.
  - rewrite (requests_params_setitem_missing c k v E). reflexivity.
Qed.

Lemma browser_user_agent_fst c :
  fst (browser_user_agent c)
  = match requests_params c with
    | None => Raise AttributeError
    | Some d =>
        match d !! "headers" with
        | None => Return VNone
        | Some (VDict h) => Return (dict_get h "User-Agent")
        | Some _ => Raise AttributeError
        end
    end.
Proof.
  destruct (requests_params c) as [d |] eqn:E.
  - destruct (d !! "headers") as [x |] eqn:Ed.
    + rewrite (browser_user_agent_headers c d x E Ed).
      destruct x; reflexivity.
    + rewrite (browser_user_agent_no_headers c d E Ed). reflexivity.
  - rewrite (browser_user_agent_missing c E). reflexivity.
Qed.

Lemma browser_user_agent_setter_fst v c :
  fst (browser_user_agent_setter v c)
  = match requests_params c with
    | None => Raise AttributeError
    | Some d =>
        match d !! "headers" with
        | None | Some (VDict _) => Return tt
        | Some _ => Raise TypeError
        end
    end.
Proof.
  destruct (requests_params c) as [d |] eqn:E.
  - destruct (d !! "headers") as [x |] eqn:Ed.
    + rewrite (browser_user_agent_setter_headers c d x v E Ed).
      destruct x; reflexivity.
    + rewrite (browser_user_agent_setter_no_headers c d v E Ed).
      reflexivity.
  - rewrite (browser_user_agent_setter_missing c v E). reflexivity.
Qed.

Lemma language_setter_fst v c :
  fst (language_setter v c)
  = if negb (truthy v) then Raise ValueError
    else match py_len v with
         | None => Raise TypeError
         | Some n =>
             if negb (n =? 2)%nat then Raise ValueError
             else if negb (py_in v get_available_languages)
                  then Raise ValueError
                  else Return tt
         end.
Proof.
  rewrite language_setter_cases.
  destruct (negb (truthy v)); [reflexivity |].
  destruct (py_len v) as [n |]; [| reflexivity].
  destruct (negb (n =? 2)%nat); [reflexivity |].
  destruct (negb (py_in v get_available_languages)); reflexivity.
Qed.

Lemma language_setter_raises_ValueError v c :
  fst (language_setter v c) = Raise ValueError <->
  truthy v = false \/
  (exists n, py_len v = Some n /\ n <> 2) \/
  (py_len v = Some 2 /\ py_in v get_available_languages = false).
Proof.
  rewrite language_setter_fst.
  destruct (truthy v) eqn:Et; cbn [negb].
  2:{ split; [left; reflexivity | reflexivity]. }
  destruct (py_len v) as [n |] eqn:El.
  2:{ split; [discriminate |].
      intros [H | [[n [H _]] | [H _]]]; discriminate. }
  destruct (n =? 2)%nat eqn:En; cbn [negb].
  - apply Nat.eqb_eq in En. subst n.
    destruct (py_in v get_available_languages) eqn:Ei; cbn [negb].
    + split; [discriminate |].
      intros [H | [[n [H Hn]] | [_ H]]]; try discriminate.
      injection H as <-. contradiction.
    + split; [| reflexivity]. intros _. right. right. auto.
  - apply Nat.eqb_neq in En. split; [| reflexivity].
    intros _. right. left. eauto.
Qed.

Lemma headers_not_a_dict_cases c d :
  requests_params c = Some d ->
  headers_not_a_dict c <->
  match d !! "headers" with
  | None | Some (VDict _) => False
  | Some _ => True
  end.
Proof.
  intros E. unfold headers_not_a_dict. split.
  - intros [d' [x [H1 [H2 H3]]]].
    assert (d' = d) by congruence. subst d'. rewrite H2.
    destruct x; try exact I. exact (H3 d0 eq_refl).
  - destruct (d !! "headers") as [x |] eqn:Ed; [| intros []].
    intros H. exists d, x. repeat split; try assumption.
    intros h ->. exact H.
Qed.

Lemma reading_raises (m : M value) c :
  (exists e, fst (reading m c) = Raise e) <-> (exists e, fst (m c) = Raise e).
Proof.
  rewrite reading_fst. destruct (fst (m c)) as [a | e'].
  - split; intros [e He]; discriminate.
  - split; intros _; eauto.
Qed.

Lemma assigning_raises (m : M unit) c :
  (exists e, fst (assigning m c) = Raise e) <-> (exists e, fst (m c) = Raise e).
Proof.
  rewrite assigning_fst. destruct (fst (m c)) as [a | e'].
  - split; intros [e He]; discriminate.
  - split; intros _; eauto.
Qed.

Lemma getter_raises (k : string) c :
  (exists e,
     fst ((d <- self_requests_params ;; ret (dict_get d k)) c) = Raise e) <->
  requests_params c = None.
Proof.
  rewrite getter_fst. destruct (requests_params c) as [d |].
  - split; [intros [e He] |]; discriminate.
  - split; eauto.
Qed.

Lemma requests_params_setitem_raises k v c :
  (exists e, fst (requests_params_setitem k v c) = Raise e) <->
  requests_params c = None.
Proof.
  rewrite requests_params_setitem_fst. destruct (requests_params c) as [d |].
  - split; [intros [e He] |]; discriminate.
  - split; eauto.
Qed.

Lemma browser_user_agent_raises c :
  (exists e, fst (browser_user_agent c) = Raise e) <->
  requests_params c = None \/ headers_not_a_dict c.
Proof.
  rewrite browser_user_agent_fst.
  destruct (requests_params c) as [d |] eqn:E.
  - rewrite (headers_not_a_dict_cases c d E).
    destruct (d !! "headers") as [[| z | s | h | cs] |];
      (split; [intros [e He]; try discriminate; right; exact I
              | intros [H | H]; [discriminate | try contradiction; eauto]]).
  - split; eauto.
Qed.

Lemma browser_user_agent_setter_raises v c :
  (exists e, fst (browser_user_agent_setter v c) = Raise e) <->
  requests_params c = None \/ headers_not_a_dict c.
Proof.
  rewrite browser_user_agent_setter_fst.
  destruct (requests_params c) as [d |] eqn:E.
  - rewrite (headers_not_a_dict_cases c d E).
    destruct (d !! "headers") as [[| z | s | h | cs] |];
      (split; [intros [e He]; try discriminate; right; exact I
              | intros [H | H]; [discriminate | try contradiction; eauto]]).
  - split; eauto.
Qed.

Lemma perform_raises (o : operation) (c : Configuration) :
  (forall v, o <> set_language v) ->
  (exists e, fst (perform o c) = Raise e) <->
  (uses_requests_params o = true /\ requests_params c = None) \/
  (uses_headers_entry o = true /\ headers_not_a_dict c).
Proof.
  intros Ho.
  destruct o; cbn [perform uses_requests_params uses_headers_entry];
    try (exfalso; exact (Ho v eq_refl));
    rewrite ?reading_raises, ?assigning_raises;
    unfold headers, headers_setter, request_timeout, request_timeout_setter,
      proxies, proxies_setter;
    rewrite ?browser_user_agent_raises, ?browser_user_agent_setter_raises,
      ?getter_raises, ?requests_params_setitem_raises;
    try (intuition discriminate).
  all: split; [intros [e He]; discriminate | intuition discriminate].
Qed.

Lemma perform_never_ValueError (o : operation) (c : Configuration) :
  (forall v, o <> set_language v) ->
  fst (perform o c) <> Raise ValueError.
Proof.
  intros Ho.
  destruct o; cbn [perform];
    rewrite ?reading_fst, ?assigning_fst;
    try (exfalso; exact (Ho v eq_refl));
    unfold headers, headers_setter, request_timeout, request_timeout_setter,
      proxies, proxies_setter, language;
    rewrite ?getter_fst, ?requests_params_setitem_fst,
      ?browser_user_agent_fst, ?browser_user_agent_setter_fst;
    cbn [fst ret];
    try discriminate;
    destruct (requests_params c) as [d |]; try discriminate;
    destruct (d !! "headers") as [[| z | s | h | cs] |]; discriminate.
Qed.

(** C2 (as amended): the language setter raises [ValueError] exactly when
    the value is false as a condition ([None], empty), or has a length
    other than 2, or has length 2 and is not a supported code; for a
    string: exactly when it is not two characters long or not supported.
    No other operation raises [ValueError], and another operation raises
    at all only if it reads [requests_params] and the attribute is
    missing, or if it is the getter or the setter of [browser_user_agent]
    and "headers" holds something that is not a dict. *)
Theorem failures_of_the_operations (c : Configuration) :
  (forall v,
     fst (language_setter v c) = Raise ValueError <->
     truthy v = false \/
     (exists n, py_len v = Some n /\ n <> 2) \/
     (py_len v = Some 2 /\ py_in v get_available_languages = false)) /\
  (forall s,
     fst (language_setter (VStr s) c) = Raise ValueError <->
     String.length s <> 2 \/ ~ In s get_available_languages) /\
  (forall o, (forall v, o <> set_language v) ->
     fst (perform o c) <> Raise ValueError /\
     ((exists e, fst (perform o c) = Raise e) <->
      (uses_requests_params o = true /\ requests_params c = None) \/
      (uses_headers_entry o = true /\ headers_not_a_dict c))) /\
  (forall o d, (forall v, o <> set_language v) ->
     requests_params c = Some d -> headers_usable d ->
     exists r, fst (perform o c) = Return r).
Proof.
  split; [| split; [| split]].
  - intros v. apply language_setter_raises_ValueError.
  - intros s. rewrite language_setter_raises_ValueError.
    cbn [truthy py_len]. split.
    + intros [H | [[n [[= <-] Hn]] | [[= H] Hi]]].
      * left. apply negb_false_iff, Nat.eqb_eq in H. lia.
      * left. exact Hn.
      * right. intros Hin. apply py_in_str in Hin. congruence.
    + intros [H | H].
      * right. left. eauto.
      * destruct (Nat.eq_dec (String.length s) 2) as [E | E].
        -- right. right. split; [congruence |].
           destruct (py_in (VStr s) get_available_languages) eqn:Ei;
             [| reflexivity].
           apply py_in_str in Ei. contradiction.
        -- right. left. eauto.
  - intros o Ho. split.
    + apply perform_never_ValueError. exact Ho.
    + apply perform_raises. exact Ho.
  - intros o d Ho Hd Hh.
    destruct (fst (perform o c)) as [r | e] eqn:E; [eauto |].
    exfalso.
    assert (Hr : exists e, fst (perform o c) = Raise e) by eauto.
    apply (perform_raises o c Ho) in Hr.
    destruct Hr as [[_ Hn] | [_ [d' [x [H1 [H2 H3]]]]]]; [congruence |].
    assert (d' = d) by congruence. subst d'.
    destruct Hh as [Hh | [h Hh]]; [congruence |].
    rewrite Hh in H2. injection H2 as <-. exact (H3 h eq_refl).
Qed.

(** ** Assigning and reading back *)



(** ** Missing keys *)

Lemma perform_missing (o : operation) (c : Configuration) :
  requests_params c = None -> uses_requests_params o = true ->
  perform o c = (Raise AttributeError, c).
Proof.
  intros E Ho.
  destruct o; try discriminate Ho; cbn [perform];
    unfold reading, assigning, bind.
  - rewrite (browser_user_agent_missing c E). reflexivity.
  - rewrite (browser_user_agent_setter_missing c v E). reflexivity.
  - unfold headers, bind. rewrite (self_requests_params_missing c E).
    reflexivity.
  - unfold headers_setter.
    rewrite (requests_params_setitem_missing c _ v E). reflexivity.
  - unfold request_timeout, bind.
    rewrite (self_requests_params_missing c E). reflexivity.
  - unfold request_timeout_setter.
    rewrite (requests_params_setitem_missing c _ v E). reflexivity.
  - unfold proxies, bind. rewrite (self_requests_params_missing c E).
    reflexivity.
  - unfold proxies_setter.
    rewrite (requests_params_setitem_missing c _ v E). reflexivity.
Qed.

Lemma getter_missing_key (k : string) c d :
  requests_params c = Some d -> d !! k = None ->
  (d' <- self_requests_params ;; ret (dict_get d' k)) c = (Return VNone, c).
Proof.
  intros E Hk. unfold bind. rewrite (self_requests_params_present c d E).
  unfold ret, dict_get. rewrite Hk. reflexivity.
Qed.

(** C8 (as amended): on an instance that has its [requests_params], a
    getter whose key is missing returns [None]; the getter and the setter
    of [browser_user_agent] first store an empty dict under "headers" when
    the key is missing, and then return, the getter [None] and the setter
    after writing the value under "User-Agent"; the getters of [headers],
    [request_timeout] and [proxies] store nothing.  No property creates
    [requests_params]: when the attribute is missing each of them raises
    [AttributeError] and the attribute stays missing. *)
Theorem missing_keys_and_lazy_headers (c : Configuration) :
  (forall d, requests_params c = Some d -> d !! "headers" = None ->
     browser_user_agent c
     = (Return VNone,
        with_requests_params (Some (<["headers" := VDict ∅]> d)) c) /\
     (forall v,
        browser_user_agent_setter v c
        = (Return tt,
           with_requests_params
             (Some (<["headers" := VDict (<["User-Agent" := v]> ∅)]> d)) c)) /\
     headers c = (Return VNone, c)) /\
  (forall d h, requests_params c = Some d ->
     d !! "headers" = Some (VDict h) -> h !! "User-Agent" = None ->
     browser_user_agent c = (Return VNone, c)) /\
  (forall d, requests_params c = Some d -> d !! "timeout" = None ->
     request_timeout c = (Return VNone, c)) /\
  (forall d, requests_params c = Some d -> d !! "proxies" = None ->
     proxies c = (Return VNone, c)) /\
  (requests_params c = None ->
     forall o, uses_requests_params o = true ->
       perform o c = (Raise AttributeError, c) /\
       requests_params (snd (perform o c)) = None).
Proof.
  split; [| split; [| split; [| split]]].
  - intros d E Hd. split; [| split].
    + exact (browser_user_agent_no_headers c d E Hd).
    + intros v. exact (browser_user_agent_setter_no_headers c d v E Hd).
    + exact (getter_missing_key "headers" c d E Hd).
  - intros d h E Hd Hh.
    rewrite (browser_user_agent_headers c d _ E Hd).
    unfold dict_get. rewrite Hh. reflexivity.
  - intros d E Hd. exact (getter_missing_key "timeout" c d E Hd).
  - intros d E Hd. exact (getter_missing_key "proxies" c d E Hd).
  - intros E o Ho. rewrite (perform_missing o c E Ho). auto.
Qed.

(** ** Accepted languages *)

Lemma language_setter_valid (s : string) (c : Configuration) :
  String.length s = 2 -> In s get_available_languages ->
  language_setter (VStr s) c
  = (Return tt,
     with_stopwords_class (get_stopwords_class (VStr s))
       (with__language (VStr s) (with_use_meta_language false c))).
Proof.
  intros Hl Hi. rewrite language_setter_cases. cbn [truthy py_len].
  rewrite Hl. cbn [Nat.eqb negb].
  apply py_in_str in Hi. rewrite Hi. reflexivity.
Qed.

Lemma py_in_is_str (v : value) (l : list string) :
  py_in v l = true -> exists s, v = VStr s /\ In s l.
Proof.
  intros H. destruct v as [| z | s | d | cs];
    try (unfold py_in in H; apply existsb_exists in H;
         destruct H as [t [_ Ht]]; discriminate Ht).
  exists s. split; [reflexivity |]. apply py_in_str. exact H.
Qed.

Lemma language_setter_returns v c :
  fst (language_setter v c) = Return tt <->
  exists s, v = VStr s /\ String.length s = 2 /\
            In s get_available_languages.
Proof.
  split.
  - rewrite language_setter_fst.
    destruct (truthy v); cbn [negb]; [| discriminate].
    destruct (py_len v) as [n |] eqn:El; [| discriminate].
    destruct (n =? 2)%nat eqn:En; cbn [negb]; [| discriminate].
    destruct (py_in v get_available_languages) eqn:Ei; cbn [negb];
      [| discriminate].
    intros _. apply py_in_is_str in Ei. destruct Ei as [s [-> Hs]].
    exists s. repeat split; [| exact Hs].
    cbn in El. injection El as ->. apply Nat.eqb_eq. exact En.
  - intros [s [-> [Hl Hi]]].
    rewrite (language_setter_valid s c Hl Hi). reflexivity.
Qed.

(** X1: assigning a supported two-character code and reading [language]
    back returns that code; the assignment also stores the stopword class
    of the code, clears [use_meta_language], and leaves [requests_params]
    and the settings as they were. *)
Theorem language_round_trip (s : string) (c : Configuration) :
  String.length s = 2 -> In s get_available_languages ->
  exists c',
    (language_setter (VStr s) ;; language) c = (Return (VStr s), c') /\
    stopwords_class c' = get_stopwords_class (VStr s) /\
    use_meta_language c' = false /\
    requests_params c' = requests_params c /\
    settings c' = settings c.
Proof.
  intros Hl Hi. eexists. unfold bind.
  rewrite (language_setter_valid s c Hl Hi). unfold language.
  cbn [_language with_stopwords_class]. repeat split.
Qed.


Lemma perform_language_is_code o c :
  language_is_code c -> language_is_code (snd (perform o c)).
Proof.
  intros H. destruct (is_language_assignment o) eqn:Eo.
  - destruct o; try discriminate Eo. cbn [perform]. rewrite assigning_snd.
    destruct (language_setter v c) as [[[] | e] c'] eqn:E.
    + assert (Hr : fst (language_setter v c) = Return tt)
        by (rewrite E; reflexivity).
      apply language_setter_returns in Hr. destruct Hr as [s [-> [Hl Hi]]].
      apply language_setter_return in E. subst c'. cbn [snd].
      exists s. cbn. auto.
    + apply language_setter_raise_unchanged in E. subst c'. exact H.
  - destruct (perform_frame o) with (c := c) as [p Hp].
    { intros v ->. discriminate Eo. }
    rewrite Hp. exact H.
Qed.

(** X3: the language of an instance is always a code: on a new instance
    and after every sequence of operations it is a [str] of two
    characters, "en" or a code of the supported list. *)
Theorem language_always_a_code :
  language_is_code __init__ /\
  (forall ops c, language_is_code c -> language_is_code (run ops c)) /\
  (forall ops, language_is_code (run ops __init__)).
Proof.
  assert (H0 : language_is_code __init__).
  { exists "en". repeat split. left. reflexivity. }
  assert (Hrun : forall ops c,
             language_is_code c -> language_is_code (run ops c)).
  { intros ops. induction ops as [| o ops IH]; intros c Hc; cbn [run].
    - exact Hc.
    - apply IH. apply perform_language_is_code. exact Hc. }
  split; [exact H0 |]. split; [exact Hrun |].
  intros ops. apply Hrun. exact H0.
Qed.

(** X4: the last accepted language assignment wins: whatever was
    assigned before, accepted or not, assigning a supported code
    afterwards leaves the instance that assigning that code alone leaves;
    in particular a repeated assignment changes nothing more. *)
Theorem language_last_assignment_wins (v : value) (s : string)
    (c : Configuration) :
  String.length s = 2 -> In s get_available_languages ->
  snd (language_setter (VStr s) (snd (language_setter v c)))
  = snd (language_setter (VStr s) c) /\
  snd (language_setter (VStr s) (snd (language_setter (VStr s) c)))
  = snd (language_setter (VStr s) c).
Proof.
  intros Hl Hi.
  assert (H : forall w,
    snd (language_setter (VStr s) (snd (language_setter w c)))
    = snd (language_setter (VStr s) c)).
  { intros w. rewrite !(language_setter_valid s _ Hl Hi). cbn [snd].
    destruct (language_setter w c) as [[[] | e] c'] eqn:E; cbn [snd].
    - apply language_setter_return in E. subst c'. reflexivity.
    - apply language_setter_raise_unchanged in E. subst c'. reflexivity. }
  split; apply H.
Qed.

(** ** The entries of [requests_params] *)

Lemma getter_snd (k : string) c :
  snd ((d <- self_requests_params ;; ret (dict_get d k)) c) = c.
Proof.
  unfold bind, self_requests_params.
  destruct (requests_params c); reflexivity.
Qed.

Lemma requests_params_setitem_snd k v c :
  requests_params (snd (requests_params_setitem k v c))
  = (fun d => <[k := v]> d) <$> requests_params c.
Proof.
  destruct (requests_params c) as [d |] eqn:E.
  - rewrite (requests_params_setitem_present c d k v E). reflexivity.
  - rewrite (requests_params_setitem_missing c k v E). cbn. exact E.
Qed.

Lemma browser_user_agent_snd c d :
  requests_params c = Some d ->
  requests_params (snd (browser_user_agent c))
  = Some (match d !! "headers" with
          | None => <["headers" := VDict ∅]> d
          | Some _ => d
          end).
Proof.
  intros E. destruct (d !! "headers") as [x |] eqn:Ed.
  - rewrite (browser_user_agent_headers c d x E Ed). exact E.
  - rewrite (browser_user_agent_no_headers c d E Ed). reflexivity.
Qed.

Lemma browser_user_agent_setter_snd v c d :
  requests_params c = Some d ->
  requests_params (snd (browser_user_agent_setter v c))
  = Some (match d !! "headers" with
          | None => <["headers" := VDict (<["User-Agent" := v]> ∅)]> d
          | Some (VDict h) =>
              <["headers" := VDict (<["User-Agent" := v]> h)]> d
          | Some _ => d
          end).
Proof.
  intros E. destruct (d !! "headers") as [x |] eqn:Ed.
  - rewrite (browser_user_agent_setter_headers c d x v E Ed).
    destruct x; try exact E; reflexivity.
  - rewrite (browser_user_agent_setter_no_headers c d v E Ed). reflexivity.
Qed.





(** X6: the user agent is the "User-Agent" entry of the headers.  After
    assigning [browser_user_agent], reading [headers] gives a dict that
    holds the value under "User-Agent" and every other header as before
    (a dict with that single entry when there were no headers); after
    assigning a dict to [headers], reading [browser_user_agent] gives the
    "User-Agent" entry of that dict, [None] when it has none. *)
Theorem user_agent_is_a_header (v : value) (c : Configuration)
    (d : gmap string value) :
  requests_params c = Some d ->
  (forall h, d !! "headers" = Some (VDict h) ->
     fst ((browser_user_agent_setter v ;; headers) c)
     = Return (VDict (<["User-Agent" := v]> h))) /\
  (d !! "headers" = None ->
     fst ((browser_user_agent_setter v ;; headers) c)
     = Return (VDict (<["User-Agent" := v]> ∅))) /\
  (forall h,
     fst ((headers_setter (VDict h) ;; browser_user_agent) c)
     = Return (dict_get h "User-Agent")) /\
  (forall h, h !! "User-Agent" = None ->
     fst ((headers_setter (VDict h) ;; browser_user_agent) c) = Return VNone).
Proof.
  intros E.
  assert (Hset : forall h,
    fst ((headers_setter (VDict h) ;; browser_user_agent) c)
    = Return (dict_get h "User-Agent")).
  { intros h. unfold bind, headers_setter.
    rewrite (requests_params_setitem_present c d _ _ E).
    erewrite browser_user_agent_headers;
      [| reflexivity | apply lookup_insert_eq]. reflexivity. }
  split; [| split; [| split]].
  - intros h Hd. unfold bind.
    rewrite (browser_user_agent_setter_headers c d _ v E Hd).
    unfold headers. rewrite getter_fst. cbn [requests_params with_requests_params].
    unfold dict_get. rewrite lookup_insert_eq. reflexivity.
  - intros Hd. unfold bind.
    rewrite (browser_user_agent_setter_no_headers c d v E Hd).
    unfold headers. rewrite getter_fst. cbn [requests_params with_requests_params].
    unfold dict_get. rewrite lookup_insert_eq. reflexivity.
  - exact Hset.
  - intros h Hh. rewrite Hset. unfold dict_get. rewrite Hh. reflexivity.
Qed.

(** ** Reading *)

Lemma with_requests_params_changed (c : Configuration) (d d' : gmap string value) :
  requests_params c = Some d -> d' <> d ->
  with_requests_params (Some d') c <> c.
Proof.
  intros E Hd H.
  assert (H' : requests_params (with_requests_params (Some d') c)
               = requests_params c) by (rewrite H; reflexivity).
  cbn in H'. rewrite E in H'. injection H' as H'. exact (Hd H').
Qed.

(** X7: reading [headers], [request_timeout], [proxies] or [language]
    never changes the instance.  Reading [browser_user_agent] changes it
    exactly when [requests_params] has no "headers": it then stores an
    empty dict there, so that [headers], which read [None] before, reads
    an empty dict afterwards.  A second read of [browser_user_agent] gives
    what the first gave and changes nothing more. *)
Theorem getters_and_the_instance (c : Configuration) :
  snd (headers c) = c /\
  snd (request_timeout c) = c /\
  snd (proxies c) = c /\
  snd (language c) = c /\
  (snd (browser_user_agent c) <> c <->
   exists d, requests_params c = Some d /\ d !! "headers" = None) /\
  (forall d, requests_params c = Some d -> d !! "headers" = None ->
     fst (headers c) = Return VNone /\
     fst ((browser_user_agent ;; headers) c) = Return (VDict ∅)) /\
  browser_user_agent (snd (browser_user_agent c)) = browser_user_agent c.
Proof.
  split; [apply getter_snd |]. split; [apply getter_snd |].
  split; [apply getter_snd |]. split; [reflexivity |].
  split; [| split].
  - destruct (requests_params c) as [d |] eqn:E.
    + destruct (d !! "headers") as [x |] eqn:Ed.
      * rewrite (browser_user_agent_headers c d x E Ed). cbn [snd]. split.
        -- intros H. contradiction.
        -- intros [d' [[= <-] Hd']]. congruence.
      * rewrite (browser_user_agent_no_headers c d E Ed). cbn [snd]. split.
        -- intros _. eauto.
        -- intros _. apply (with_requests_params_changed c d _ E).
           intros H.
           assert (H' : <["headers" := VDict ∅]> d !! "headers"
                        = d !! "headers") by (rewrite H; reflexivity).
           rewrite lookup_insert_eq, Ed in H'. discriminate H'.
    + rewrite (browser_user_agent_missing c E). cbn [snd]. split.
      * intros H. contradiction.
      * intros [d [H _]]. discriminate H.
  - intros d E Ed. split.
    + unfold headers. rewrite getter_fst, E. unfold dict_get.
      rewrite Ed. reflexivity.
    + unfold bind. rewrite (browser_user_agent_no_headers c d E Ed).
      unfold headers. rewrite getter_fst.
      cbn [requests_params with_requests_params].
      unfold dict_get. rewrite lookup_insert_eq. reflexivity.
  - destruct (requests_params c) as [d |] eqn:E.
    + destruct (d !! "headers") as [x |] eqn:Ed.
      * rewrite (browser_user_agent_headers c d x E Ed). cbn [snd].
        apply (browser_user_agent_headers c d x E Ed).
      * rewrite (browser_user_agent_no_headers c d E Ed). cbn [snd].
        erewrite browser_user_agent_headers;
          [| reflexivity | apply lookup_insert_eq].
        reflexivity.
    + rewrite (browser_user_agent_missing c E). cbn [snd].
      apply (browser_user_agent_missing c E).
Qed.

(** ** What the operations leave alone *)

Lemma perform_requests_params o c d :
  requests_params c = Some d ->
  exists d',
    requests_params (snd (perform o c)) = Some d' /\
    (d' = d \/ exists k x, k <> "cookies" /\ d' = <[k := x]> d).
Proof.
  intros E.
  assert (Hsame : exists d', Some d = Some d' /\
            (d' = d \/ exists k x, k <> "cookies" /\ d' = <[k := x]> d))
    by eauto.
  assert (Hins : forall k x, k <> "cookies" ->
            exists d', Some (<[k := x]> d) = Some d' /\
              (d' = d \/ exists k x, k <> "cookies" /\ d' = <[k := x]> d)).
  { intros k x Hk. eexists. split; [reflexivity |]. right. eauto. }
  destruct (is_language_assignment o) eqn:Eo.
  { destruct o; try discriminate Eo.
    destruct (perform_set_language_snd v c) as [H | H]; rewrite H;
      cbn [requests_params with_stopwords_class with__language
           with_use_meta_language];
      rewrite ?E; exact Hsame. }
  destruct o; try discriminate Eo; cbn [perform];
    rewrite ?reading_snd, ?assigning_snd;
    unfold headers, headers_setter, request_timeout, request_timeout_setter,
      proxies, proxies_setter;
    rewrite ?getter_snd, ?requests_params_setitem_snd,
      ?(browser_user_agent_snd c d E),
      ?(browser_user_agent_setter_snd v c d E), ?E;
    cbn [fmap option_fmap option_map snd ret language];
    try exact Hsame; try (apply Hins; discriminate).
  - destruct (d !! "headers"); [exact Hsame | apply Hins; discriminate].
  - destruct (d !! "headers") as [[| z | s | h | cs] |];
      try exact Hsame; apply Hins; discriminate.
  - rewrite E. exact Hsame.
  - rewrite E. exact Hsame.
  - rewrite E. exact Hsame.
Qed.

Lemma perform_keeps_entries o c d :
  requests_params c = Some d ->
  exists d',
    requests_params (snd (perform o c)) = Some d' /\
    (forall k, is_Some (d !! k) -> is_Some (d' !! k)) /\
    d' !! "cookies" = d !! "cookies".
Proof.
  intros E. destruct (perform_requests_params o c d E)
    as [d' [Hd' [-> | [k [x [Hk ->]]]]]];
    eexists; (split; [exact Hd' |]).
  - auto.
  - split.
    + intros k' Hk'. apply lookup_insert_is_Some.
      destruct (decide (k = k')); auto.
    + apply lookup_insert_ne. exact Hk.
Qed.

(** X8: no operation removes an entry of [requests_params] or touches its
    "cookies": after one operation, and after every sequence of
    operations, [requests_params] is still there, every key it had is
    still there, and "cookies" holds what it held.  On a new instance
    "timeout", "proxies" and "headers" therefore stay defined and the
    cookie jar stays the empty one of [__init__]. *)
Theorem requests_params_entries_persist :
  (forall ops c d, requests_params c = Some d ->
     exists d',
       requests_params (run ops c) = Some d' /\
       (forall k, is_Some (d !! k) -> is_Some (d' !! k)) /\
       d' !! "cookies" = d !! "cookies") /\
  (forall ops, exists d',
     requests_params (run ops __init__) = Some d' /\
     is_Some (d' !! "timeout") /\ is_Some (d' !! "proxies") /\
     is_Some (d' !! "headers") /\
     d' !! "cookies" = Some (VCookieJar [])).
Proof.
  assert (Hrun : forall ops c d, requests_params c = Some d ->
     exists d',
       requests_params (run ops c) = Some d' /\
       (forall k, is_Some (d !! k) -> is_Some (d' !! k)) /\
       d' !! "cookies" = d !! "cookies").
  { intros ops. induction ops as [| o ops IH]; intros c d E; cbn [run].
    - exists d. auto.
    - destruct (perform_keeps_entries o c d E) as [d1 [E1 [Hk1 Hc1]]].
      destruct (IH _ d1 E1) as [d' [E' [Hk' Hc']]].
      exists d'. split; [exact E' |]. split.
      + intros k Hk. apply Hk', Hk1, Hk.
      + rewrite Hc'. exact Hc1. }
  split; [exact Hrun |].
  intros ops.
  destruct (Hrun ops __init__ _ eq_refl) as [d' [E' [Hk' Hc']]].
  exists d'. split; [exact E' |].
  repeat split; try (apply Hk'; eexists; reflexivity).
  rewrite Hc'. reflexivity.
Qed.

Lemma perform_ready o c :
  requests_params_ready c -> assigns_dict_to_headers o ->
  requests_params_ready (snd (perform o c)).
Proof.
  intros [d [E Hd]] Ho. unfold requests_params_ready.
  assert (Hsame : exists d', Some d = Some d' /\ headers_usable d') by eauto.
  assert (Hhead : forall h,
            exists d', Some (<["headers" := VDict h]> d) = Some d' /\
                       headers_usable d').
  { intros h. eexists. split; [reflexivity |]. right. exists h.
    apply lookup_insert_eq. }
  assert (Hother : forall k x, k <> "headers" ->
            exists d', Some (<[k := x]> d) = Some d' /\ headers_usable d').
  { intros k x Hk. eexists. split; [reflexivity |].
    unfold headers_usable. rewrite lookup_insert_ne by exact Hk. exact Hd. }
  destruct (is_language_assignment o) eqn:Eo.
  { destruct o; try discriminate Eo.
    destruct (perform_set_language_snd v c) as [H | H]; rewrite H;
      cbn [requests_params with_stopwords_class with__language
           with_use_meta_language];
      rewrite ?E; exact Hsame. }
  destruct o; try discriminate Eo; cbn [perform];
    rewrite ?reading_snd, ?assigning_snd;
    unfold headers, headers_setter, request_timeout, request_timeout_setter,
      proxies, proxies_setter;
    rewrite ?getter_snd, ?requests_params_setitem_snd,
      ?(browser_user_agent_snd c d E),
      ?(browser_user_agent_setter_snd v c d E), ?E;
    cbn [fmap option_fmap option_map snd ret language];
    try exact Hsame; try (apply Hother; discriminate).
  - destruct (d !! "headers"); [exact Hsame | apply Hhead].
  - destruct (d !! "headers") as [[| z | s | h | cs] |];
      try exact Hsame; apply Hhead.
  - destruct Ho as [h ->]. apply Hhead.
  - rewrite E. exact Hsame.
  - rewrite E. exact Hsame.
  - rewrite E. exact Hsame.
Qed.

(** X9: as long as [headers] is only ever assigned dicts, nothing but a
    language assignment can fail: starting from an instance that has its
    [requests_params] with "headers" missing or a dict (a new instance is
    one), after every such sequence of operations the instance is again
    of that kind and every operation other than a language assignment
    returns. *)
Theorem no_failure_while_headers_is_a_dict
    (ops : list operation) (c : Configuration) :
  requests_params_ready c ->
  Forall assigns_dict_to_headers ops ->
  requests_params_ready (run ops c) /\
  forall o, is_language_assignment o = false ->
    exists r, fst (perform o (run ops c)) = Return r.
Proof.
  intros Hc Hops.
  assert (Hready : requests_params_ready (run ops c)).
  { revert c Hc. induction Hops as [| o ops Ho Hops IH]; intros c Hc;
      cbn [run]; [exact Hc |].
    apply IH. apply perform_ready; assumption. }
  split; [exact Hready |].
  intros o Ho.
  destruct (fst (perform o (run ops c))) as [r | e] eqn:E; [eauto |].
  exfalso.
  assert (Hr : exists e, fst (perform o (run ops c)) = Raise e) by eauto.
  apply perform_raises in Hr; [| intros v ->; discriminate Ho].
  destruct Hready as [d [Ed Hd]].
  destruct Hr as [[_ Hn] | [_ Hn]]; [congruence |].
  apply (headers_not_a_dict_cases _ d Ed) in Hn.
  destruct Hd as [Hd | [h Hd]]; rewrite Hd in Hn; exact Hn.
Qed.


Lemma classic_special (v : value) :
  In v (map VStr special_codes) \/
  (forall s, In s special_codes -> v <> VStr s).
Proof.
  destruct v as [| z | s | d | cs]; try (right; intros t _; discriminate).
  destruct (decide (In s special_codes)) as [H | H].
  - left. apply in_map. exact H.
  - right. intros t Ht [= ->]. exact (H Ht).
Qed.

(** X11: the stopword class tells the code: [get_stopwords_class] gives
    the Korean, Hindi, Chinese, Japanese or Thai class only for "ko",
    "hi", "zh", "ja" or "th", the Arabic class only for "ar" and "fa",
    and the general [StopWords] only for an argument that is none of the
    seven codes. *)
Theorem stopwords_class_tells_the_code (v : value) :
  (get_stopwords_class v = StopWordsKorean <-> v = VStr "ko") /\
  (get_stopwords_class v = StopWordsHindi <-> v = VStr "hi") /\
  (get_stopwords_class v = StopWordsChinese <-> v = VStr "zh") /\
  (get_stopwords_class v = StopWordsArabic <->
   v = VStr "ar" \/ v = VStr "fa") /\
  (get_stopwords_class v = StopWordsJapanese <-> v = VStr "ja") /\
  (get_stopwords_class v = StopWordsThai <-> v = VStr "th") /\
  (get_stopwords_class v = StopWords <->
   forall s, In s special_codes -> v <> VStr s).
Proof.
  destruct (classic_special v) as [Hv | Hv].
  - cbn in Hv.
    destruct Hv as [<- | [<- | [<- | [<- | [<- | [<- | [<- | []]]]]]]];
      repeat split; intros H;
      try reflexivity;
      try (vm_compute in H; discriminate H);
      try (destruct H as [H | H]; discriminate H);
      try (left; reflexivity); try (right; reflexivity);
      (exfalso; eapply H; [| reflexivity]; cbn; tauto).
  - rewrite (get_stopwords_class_other v Hv).
    repeat split; intros H;
      try discriminate H; try exact Hv;
      try (destruct H as [H | H]);
      (exfalso; eapply Hv; [| exact H]; cbn; tauto).
Qed.

(** ** Assigning twice *)

Lemma requests_params_setitem_state k v c :
  snd (requests_params_setitem k v c)
  = match requests_params c with
    | Some d => with_requests_params (Some (<[k := v]> d)) c
    | None => c
    end.
Proof.
  destruct (requests_params c) as [d |] eqn:E.
  - rewrite (requests_params_setitem_present c d k v E). reflexivity.
  - rewrite (requests_params_setitem_missing c k v E). reflexivity.
Qed.

Lemma requests_params_setitem_twice k v w c :
  snd (requests_params_setitem k w (snd (requests_params_setitem k v c)))
  = snd (requests_params_setitem k w c).
Proof.
  rewrite !requests_params_setitem_state.
  destruct (requests_params c) as [d |] eqn:E.
  - cbn [requests_params with_requests_params].
    rewrite insert_insert_eq. reflexivity.
  - rewrite E. reflexivity.
Qed.

Lemma requests_params_setitem_commute k k' v w c :
  k <> k' ->
  snd (requests_params_setitem k v (snd (requests_params_setitem k' w c)))
  = snd (requests_params_setitem k' w (snd (requests_params_setitem k v c))).
Proof.
  intros Hk. rewrite !requests_params_setitem_state.
  destruct (requests_params c) as [d |] eqn:E.
  - cbn [requests_params with_requests_params].
    rewrite (insert_insert_ne d k k' v w) by exact Hk. reflexivity.
  - rewrite E. reflexivity.
Qed.

Lemma browser_user_agent_setter_state v c :
  snd (browser_user_agent_setter v c)
  = match requests_params c with
    | None => c
    | Some d =>
        match d !! "headers" with
        | None =>
            with_requests_params
              (Some (<["headers" := VDict (<["User-Agent" := v]> ∅)]> d)) c
        | Some (VDict h) =>
            with_requests_params
              (Some (<["headers" := VDict (<["User-Agent" := v]> h)]> d)) c
        | Some _ => c
        end
    end.
Proof.
  destruct (requests_params c) as [d |] eqn:E.
  - destruct (d !! "headers") as [x |] eqn:Ed.
    + rewrite (browser_user_agent_setter_headers c d x v E Ed).
      destruct x; reflexivity.
    + rewrite (browser_user_agent_setter_no_headers c d v E Ed). reflexivity.
  - rewrite (browser_user_agent_setter_missing c v E). reflexivity.
Qed.

(** X12: on every instance, of two assignments to the same property
    ([headers], [request_timeout], [proxies] or [browser_user_agent]) only
    the second counts: the instance is the one that the second assignment
    alone leaves.  Assignments to two different properties among
    [headers], [request_timeout] and [proxies] give the same instance in
    either order. *)
Theorem assignments_compose (v w : value) (c : Configuration) :
  snd (headers_setter w (snd (headers_setter v c)))
  = snd (headers_setter w c) /\
  snd (request_timeout_setter w (snd (request_timeout_setter v c)))
  = snd (request_timeout_setter w c) /\
  snd (proxies_setter w (snd (proxies_setter v c)))
  = snd (proxies_setter w c) /\
  snd (browser_user_agent_setter w (snd (browser_user_agent_setter v c)))
  = snd (browser_user_agent_setter w c) /\
  snd (headers_setter v (snd (request_timeout_setter w c)))
  = snd (request_timeout_setter w (snd (headers_setter v c))) /\
  snd (headers_setter v (snd (proxies_setter w c)))
  = snd (proxies_setter w (snd (headers_setter v c))) /\
  snd (request_timeout_setter v (snd (proxies_setter w c)))
  = snd (proxies_setter w (snd (request_timeout_setter v c))).
Proof.
  unfold headers_setter, request_timeout_setter, proxies_setter.
  repeat split;
    try apply requests_params_setitem_twice;
    try (apply requests_params_setitem_commute; discriminate).
  rewrite !browser_user_agent_setter_state.
  destruct (requests_params c) as [d |] eqn:E; [| rewrite E; reflexivity].
  destruct (d !! "headers") as [[| z | s | h | cs] |] eqn:Ed;
    cbn [requests_params with_requests_params];
    rewrite ?E, ?Ed, ?lookup_insert_eq, ?insert_insert_eq;
    reflexivity.
Qed.

End Configuration.

(** ** The code on concrete instances

    A new instance [c0]; [c1], on which [headers] was assigned [None];
    [c2], whose [requests_params] is an empty dict; and [c3], from which
    the attribute [requests_params] was deleted. *)

Lemma get_stopwords_class_mapping_witness :
  In "de" sample_languages /\ ~ In "de" special_codes /\
  get_stopwords_class (VStr "de") = StopWords.
Proof.
  assert (Hin : In "de" sample_languages) by (simpl; tauto).
  assert (Hout : ~ In "de" special_codes) by (simpl; intuition discriminate).
  split; [exact Hin |]. split; [exact Hout |].
  destruct (get_stopwords_class_mapping sample_languages)
    as (_ & _ & _ & _ & _ & _ & _ & _ & _ & H & _).
  exact (H "de" Hin Hout).
Defined.

Lemma get_stopwords_class_total_witness :
  get_stopwords_class (VStr "") = StopWords /\
  perform sample_languages (call_get_stopwords_class (VStr ""))
    (__init__ sample_version)
  = (Return (RStopwords StopWords), __init__ sample_version).
Proof.
  apply (get_stopwords_class_total sample_languages (VStr "")
           (__init__ sample_version)).
  intros s Hs. simpl in Hs. intuition (subst; discriminate).
Defined.

Lemma language_setter_failure_atomic_witness :
  let c0 := __init__ sample_version in
  language_setter sample_languages (VStr "xx") c0 = (Raise ValueError, c0) /\
  language_setter sample_languages (VStr "eng") c0 = (Raise ValueError, c0) /\
  _language (snd (language_setter sample_languages (VInt 5) c0)) = VStr "en".
Proof.
  intros c0.
  destruct (language_setter_failure_atomic sample_languages c0)
    as (Hs & _ & Hv).
  split; [| split].
  - apply (Hs "xx"). right. simpl. intuition discriminate.
  - apply (Hs "eng"). left. simpl. lia.
  - destruct (Hv (VInt 5) TypeError
                (snd (language_setter sample_languages (VInt 5) c0)))
      as (_ & H & _); [reflexivity | exact H].
Defined.

Lemma use_meta_language_cleared_for_good_witness :
  let c := snd (language_setter sample_languages (VStr "zh")
                  (__init__ sample_version)) in
  use_meta_language c = false /\
  use_meta_language
    (run sample_languages
       [set_language (VStr "xx"); set_headers VNone; get_browser_user_agent;
        set_language (VStr "en")] c) = false.
Proof.
  intros c.
  destruct (use_meta_language_cleared_for_good sample_languages sample_version)
    as (_ & Hset & Hrun).
  assert (Hc : use_meta_language c = false).
  { apply (Hset (VStr "zh") (__init__ sample_version)). reflexivity. }
  split; [exact Hc |]. apply Hrun. exact Hc.
Defined.

Lemma stopwords_class_follows_language_witness :
  let c := snd (language_setter sample_languages (VStr "zh")
                  (__init__ sample_version)) in
  _language c = VStr "zh" /\ stopwords_class c = StopWordsChinese /\
  consistent (run sample_languages [set_language (VStr "xx")] c).
Proof.
  intros c.
  destruct (stopwords_class_follows_language sample_languages sample_version)
    as (_ & _ & Hrun & Hset & _).
  destruct (Hset (VStr "zh") (__init__ sample_version) c) as [Hl Hk];
    [reflexivity |].
  split; [exact Hl |]. split; [exact Hk |].
  apply Hrun. unfold consistent. rewrite Hl, Hk. reflexivity.
Defined.

Lemma failures_of_the_operations_witness :
  let c0 := __init__ sample_version in
  fst (language_setter sample_languages (VStr "xx") c0) = Raise ValueError /\
  exists r, fst (perform sample_languages get_browser_user_agent c0) = Return r.
Proof.
  intros c0.
  destruct (failures_of_the_operations sample_languages c0)
    as (_ & Hs & _ & Hret).
  split.
  - apply (Hs "xx"). right. simpl. intuition discriminate.
  - destruct (requests_params c0) as [d |] eqn:E; [| discriminate].
    apply (Hret get_browser_user_agent d); [discriminate | reflexivity |].
    right. injection E as <-. eexists. reflexivity.
Defined.


Lemma missing_keys_and_lazy_headers_witness :
  let c2 := with_requests_params (Some ∅) (__init__ sample_version) in
  let c3 := with_requests_params None (__init__ sample_version) in
  browser_user_agent c2
  = (Return VNone,
     with_requests_params (Some (<["headers" := VDict ∅]> ∅)) c2) /\
  request_timeout c2 = (Return VNone, c2) /\
  perform sample_languages get_headers c3 = (Raise AttributeError, c3).
Proof.
  intros c2 c3.
  destruct (missing_keys_and_lazy_headers sample_languages c2)
    as (Hb & _ & Ht & _).
  destruct (missing_keys_and_lazy_headers sample_languages c3)
    as (_ & _ & _ & _ & Hm).
  split; [| split].
  - apply (Hb ∅ eq_refl eq_refl).
  - apply (Ht ∅ eq_refl eq_refl).
  - apply (Hm eq_refl get_headers eq_refl).
Defined.

(** C2, counterexample: on a new instance, [config.headers = None]
    returns; reading [config.browser_user_agent] then raises
    [AttributeError] and assigning it raises [TypeError], so an operation
    other than the language setter fails. *)
Lemma other_operations_can_fail :
  let c1 := run sample_languages [set_headers VNone] (__init__ sample_version) in
  perform sample_languages (set_headers VNone) (__init__ sample_version)
  = (Return RUnit, c1) /\
  perform sample_languages get_browser_user_agent c1
  = (Raise AttributeError, c1) /\
  perform sample_languages (set_browser_user_agent (VStr "bot/1.0")) c1
  = (Raise TypeError, c1) /\
  ~ (forall ops o, (forall v, o <> set_language v) ->
       exists r,
         fst (perform sample_languages o
                (run sample_languages ops (__init__ sample_version)))
         = Return r).
Proof.
  intros c1. repeat split; try (vm_compute; reflexivity).
  intros H.
  destruct (H [set_headers VNone] get_browser_user_agent) as [r Hr];
    [discriminate |].
  vm_compute in Hr. discriminate.
Qed.


(** C8, counterexample: with an empty [requests_params], reading [headers]
    returns [None] and "headers" is still missing afterwards; with the
    attribute [requests_params] deleted, reading [browser_user_agent]
    raises [AttributeError] and the attribute is still missing. *)
Lemma headers_and_requests_params_not_created :
  let c2 := with_requests_params (Some ∅) (__init__ sample_version) in
  let c3 := with_requests_params None (__init__ sample_version) in
  perform sample_languages get_headers c2 = (Return (RValue VNone), c2) /\
  requests_params c2 = Some ∅ /\
  perform sample_languages get_browser_user_agent c3
  = (Raise AttributeError, c3) /\
  requests_params c3 = None /\
  ~ (forall c o, uses_requests_params o = true ->
       exists d x,
         requests_params (snd (perform sample_languages o c)) = Some d /\
         d !! "headers" = Some x).
Proof.
  intros c2 c3. repeat split; try (vm_compute; reflexivity).
  intros H. destruct (H c2 get_headers eq_refl) as (d & x & Hd & Hx).
  vm_compute in Hd. injection Hd as <-. discriminate.
Qed.

(** ** More runs on concrete instances *)

Lemma language_round_trip_witness :
  String.length "zh" = 2 /\ In "zh" sample_languages /\
  fst ((language_setter sample_languages (VStr "zh") ;; language)
         (__init__ sample_version))
  = Return (VStr "zh").
Proof.
  assert (Hl : String.length "zh" = 2) by reflexivity.
  assert (Hi : In "zh" sample_languages) by (simpl; tauto).
  split; [exact Hl |]. split; [exact Hi |].
  destruct (language_round_trip sample_languages "zh"
              (__init__ sample_version) Hl Hi) as [c' [H _]].
  rewrite H. reflexivity.
Defined.


Lemma language_always_a_code_witness :
  language_is_code sample_languages
    (run sample_languages
       [set_language (VStr "ko"); set_language (VStr "korean");
        set_language (VInt 5); set_headers VNone]
       (__init__ sample_version)).
Proof.
  destruct (language_always_a_code sample_languages sample_version)
    as (H0 & Hrun & _).
  apply Hrun. exact H0.
Defined.

Lemma language_last_assignment_wins_witness :
  let c0 := __init__ sample_version in
  snd (language_setter sample_languages (VStr "ja")
         (snd (language_setter sample_languages (VStr "zh") c0)))
  = snd (language_setter sample_languages (VStr "ja") c0).
Proof.
  intros c0.
  apply (language_last_assignment_wins sample_languages (VStr "zh") "ja" c0).
  - reflexivity.
  - simpl. tauto.
Defined.

Lemma user_agent_is_a_header_witness :
  fst ((browser_user_agent_setter (VStr "bot/1.0") ;; headers)
         (__init__ sample_version))
  = Return (VDict (<["User-Agent" := VStr "bot/1.0"]>
                     (<["User-Agent" := VStr "newspaper/0.9.3"]> ∅))) /\
  fst ((headers_setter (VDict ∅) ;; browser_user_agent)
         (__init__ sample_version))
  = Return VNone.
Proof.
  destruct (user_agent_is_a_header (VStr "bot/1.0") (__init__ sample_version)
              _ eq_refl) as (Hb & _ & _ & Hh).
  split.
  - apply Hb. reflexivity.
  - apply Hh. reflexivity.
Defined.

Lemma getters_and_the_instance_witness :
  let c2 := with_requests_params (Some ∅) (__init__ sample_version) in
  snd (browser_user_agent c2) <> c2 /\
  fst (headers c2) = Return VNone /\
  fst ((browser_user_agent ;; headers) c2) = Return (VDict ∅).
Proof.
  intros c2.
  destruct (getters_and_the_instance c2) as (_ & _ & _ & _ & Hc & Hh & _).
  split.
  - apply Hc. exists ∅. split; reflexivity.
  - apply (Hh ∅); reflexivity.
Defined.

Lemma requests_params_entries_persist_witness :
  exists d',
    requests_params
      (run sample_languages
         [set_headers VNone; set_proxies VNone; get_browser_user_agent]
         (__init__ sample_version)) = Some d' /\
    d' !! "cookies" = Some (VCookieJar []).
Proof.
  destruct (requests_params_entries_persist sample_languages sample_version)
    as (Hrun & _).
  destruct (Hrun [set_headers VNone; set_proxies VNone; get_browser_user_agent]
              (__init__ sample_version) _ eq_refl) as [d' [E [_ Hc]]].
  exists d'. split; [exact E |]. rewrite Hc. reflexivity.
Defined.

Lemma no_failure_while_headers_is_a_dict_witness :
  exists r,
    fst (perform sample_languages get_browser_user_agent
           (run sample_languages
              [set_headers (VDict ∅); set_language (VStr "xx");
               set_request_timeout VNone]
              (__init__ sample_version)))
    = Return r.
Proof.
  apply (no_failure_while_headers_is_a_dict sample_languages
           [set_headers (VDict ∅); set_language (VStr "xx");
            set_request_timeout VNone]
           (__init__ sample_version)).
  - eexists. split; [reflexivity |]. right. eexists. reflexivity.
  - repeat constructor. simpl. eexists. reflexivity.
  - reflexivity.
Defined.


Lemma stopwords_class_tells_the_code_witness :
  get_stopwords_class (VStr "fa") = StopWordsArabic /\
  get_stopwords_class (VStr "Fa") = StopWords.
Proof.
  destruct (stopwords_class_tells_the_code (VStr "fa"))
    as (_ & _ & _ & Ha & _).
  destruct (stopwords_class_tells_the_code (VStr "Fa"))
    as (_ & _ & _ & _ & _ & _ & Hs).
  split.
  - apply Ha. right. reflexivity.
  - apply Hs. intros s Hs'. simpl in Hs'. intuition (subst; discriminate).
Defined.
